(** * xgi.readwrite.xgi_data: loading and downloading datasets of xgi-data

    A shallow embedding of [src/xgi/readwrite/xgi_data.py].  The three
    functions of the module ([load_xgi_data], [download_xgi_data] and
    [_request_from_xgi_data]) are written in a state-and-exception monad
    over a [world] holding what they touch: the local file system, the
    remote end reached through [requests.get], standard output and the
    warnings emitted.  Functions of Python's libraries and of the rest of
    xgi which the module calls are taken through two interfaces,
    [PyLib] and [XgiConvert]. *)

From Stdlib Require Import ZArith NArith List String Ascii Bool Lia.
From stdpp Require Import base option list gmap.

Set Warnings "-register-all".
Local Open Scope N_scope.

(** ** Python strings

    A [str] is a sequence of Unicode code points. *)

Abbreviation str := (list N).

(** A literal of the source, given by its (ASCII) characters. *)
Definition lit (s : string) : str :=
  map N_of_ascii (list_ascii_of_string s).

#[global] Arguments lit : simpl never.

(** The newline character, and [os.sep] on POSIX. *)
Definition nl : N := 10.
Definition sep : N := 47.

(** [sep.join(parts)] *)
Fixpoint str_join (sp : str) (parts : list str) : str :=
  match parts with
  | [] => []
  | [p] => p
  | p :: rest => p ++ sp ++ str_join sp rest
  end.

Fixpoint str_startswith (pre s : str) : bool :=
  match pre, s with
  | [], _ => true
  | _ :: _, [] => false
  | a :: pre', b :: s' => (a =? b) && str_startswith pre' s'
  end.

Definition str_endswith_sep (s : str) : bool :=
  match last s with
  | Some c => c =? sep
  | None => false
  end.

(** [sub in s] on two strings: [sub] occurs in [s]. *)
Fixpoint str_contains (sub s : str) : bool :=
  str_startswith sub s ||
  match s with
  | [] => false
  | _ :: s' => str_contains sub s'
  end.

(** *** Case mappings

    [str.lower] and [str.upper] work code point by code point on strings
    below U+0100 (ASCII and the Latin-1 supplement); the three code points
    of that range whose upper case lies outside it are U+00B5 (to U+039C),
    U+00DF (to the two letters SS) and U+00FF (to U+0178).  For strings
    with a code point from U+0100 on, the mappings are those of the Unicode
    tables of the interpreter, taken from [PyLib]. *)

Definition is_ascii (s : str) : bool := forallb (fun c => c <? 128) s.
Definition is_latin1 (s : str) : bool := forallb (fun c => c <? 256) s.

Definition lower_cp (c : N) : N :=
  if (65 <=? c) && (c <=? 90) then c + 32
  else if (192 <=? c) && (c <=? 222) && negb (c =? 215) then c + 32
  else c.

Definition upper_cp (c : N) : str :=
  if (97 <=? c) && (c <=? 122) then [c - 32]
  else if c =? 181 then [924]
  else if c =? 223 then [83; 83]
  else if (224 <=? c) && (c <=? 254) && negb (c =? 247) then [c - 32]
  else if c =? 255 then [376]
  else [c].

(** ** Python values

    What [json] parsing yields: [None], booleans, integers, floats (named
    by their IEEE-754 binary64 bit pattern), strings, lists and dicts.  A
    dict keeps its keys in insertion order, so it is an association list;
    the keys of a Python dict are distinct and [dict_get] reads the binding
    of a key. *)

Inductive pyval : Type :=
| PNone
| PBool (b : bool)
| PInt (z : Z)
| PFloat (bits : Z)
| PStr (s : str)
| PList (items : list pyval)
| PDict (items : list (str * pyval)).

Fixpoint dict_get (key : str) (items : list (str * pyval)) : option pyval :=
  match items with
  | [] => None
  | (k, v) :: rest => if bool_decide (k = key) then Some v else dict_get key rest
  end.

Definition dict_keys (items : list (str * pyval)) : list str := map fst items.

(** ** Exceptions and outcomes *)

Inductive exn : Type :=
| XGIError (msg : str)
| TypeError
| KeyError (key : str)
| RequestException        (* raised by requests.get *)
| JSONDecodeError         (* a body or a file that is not JSON *)
| OSError                 (* raised by open *)
| DumpError               (* raised by json.dump *)
| ConverterError (msg : str). (* raised inside convert.dict_to_hypergraph *)

(** The error of line 104. *)
Definition DatasetNotFound : exn :=
  XGIError (lit "Must choose a valid dataset name!").

Inductive outcome (A : Type) : Type :=
| Ret (a : A)
| Raise (e : exn).
Arguments Ret {A} a.
Arguments Raise {A} e.

(** ** The libraries the module calls *)

(** Python's builtins, [json] and [requests]. *)
Class PyLib : Type := {
  (** [s.lower()] and [s.upper()] for [s] with a code point from U+0100 on *)
  lower_wide : str -> str;
  upper_wide : str -> str;
  (** [str(v)] for [v] other than a string (what [print] shows) *)
  repr : pyval -> str;
  (** [Response.json()] on the body of a response; [None]: it raises *)
  response_json : str -> option pyval;
  (** [json.load] on the text of a file; [None]: it raises *)
  json_load : str -> option pyval;
  (** the text [json.dump] writes; [None]: it raises *)
  json_dump : pyval -> option str;
}.

(** [xgi.convert]: the hypergraph type, the casts accepted as [nodetype]
    and [edgetype], and [dict_to_hypergraph]; [inr msg]: it raises. *)
Class XgiConvert : Type := {
  Hypergraph : Type;
  cast : Type;
  dict_to_hypergraph :
    pyval -> option cast -> option cast -> option Z -> Hypergraph + str;
}.

Definition str_lower `{PyLib} (s : str) : str :=
  if is_latin1 s then map lower_cp s else lower_wide s.

Definition str_upper `{PyLib} (s : str) : str :=
  if is_latin1 s then flat_map upper_cp s else upper_wide s.

(** [str(v)] *)
Definition py_str `{PyLib} (v : pyval) : str :=
  match v with
  | PStr s => s
  | _ => repr v
  end.

(** [key in c] for a string [key]: membership among the keys of a dict,
    among the items of a list, as a substring of a string; other values
    are not containers. *)
Definition py_is_str (key : str) (v : pyval) : bool :=
  match v with
  | PStr s => bool_decide (s = key)
  | _ => false
  end.

Definition py_contains (key : str) (c : pyval) : outcome bool :=
  match c with
  | PDict items =>
      Ret (match dict_get key items with Some _ => true | None => false end)
  | PList items => Ret (existsb (py_is_str key) items)
  | PStr s => Ret (str_contains key s)
  | _ => Raise TypeError
  end.

(** What [*c] unpacks to. *)
Definition py_iter (c : pyval) : outcome (list pyval) :=
  match c with
  | PDict items => Ret (map PStr (dict_keys items))
  | PList items => Ret items
  | PStr s => Ret (map (fun ch => PStr [ch]) s)
  | _ => Raise TypeError
  end.

(** [c[key]] for a string [key]. *)
Definition py_getitem (c : pyval) (key : str) : outcome pyval :=
  match c with
  | PDict items =>
      match dict_get key items with
      | Some v => Ret v
      | None => Raise (KeyError key)
      end
  | _ => Raise TypeError
  end.

(** ** The world *)

Inductive node : Type :=
| File (content : str)
| Dir.

Record world : Type := World {
  (** the file system, by path as the program spells it *)
  fs : gmap str node;
  (** paths that [open(_, 'r')] refuses although they exist *)
  unreadable : gset str;
  (** paths that [open(_, 'w')] refuses (no such directory, permissions) *)
  unwritable : gset str;
  (** the body served at each URL that answers *)
  remote : gmap str str;
  (** the arguments of the calls of [requests.get], oldest first *)
  net_log : list pyval;
  (** the text written to standard output *)
  stdout : str;
  (** the warnings emitted, oldest first *)
  warnings : list str;
}.

Definition set_fs (f : gmap str node) (w : world) : world :=
  World f (unreadable w) (unwritable w) (remote w) (net_log w) (stdout w) (warnings w).
Definition set_net_log (l : list pyval) (w : world) : world :=
  World (fs w) (unreadable w) (unwritable w) (remote w) l (stdout w) (warnings w).
Definition set_stdout (o : str) (w : world) : world :=
  World (fs w) (unreadable w) (unwritable w) (remote w) (net_log w) o (warnings w).
Definition set_warnings (l : list str) (w : world) : world :=
  World (fs w) (unreadable w) (unwritable w) (remote w) (net_log w) (stdout w) l.

(** ** The monad: a world in, an outcome and a world out.  What was done
    before an exception stays done. *)

Definition M (A : Type) : Type := world -> outcome A * world.

Definition ret {A} (a : A) : M A := fun w => (Ret a, w).
Definition raise {A} (e : exn) : M A := fun w => (Raise e, w).
Definition lift {A} (o : outcome A) : M A := fun w => (o, w).
Definition bind {A B} (m : M A) (k : A -> M B) : M B :=
  fun w =>
    match m w with
    | (Ret a, w') => k a w'
    | (Raise e, w') => (Raise e, w')
    end.

Notation "x <- m ;; k" := (bind m (fun x => k))
  (at level 100, m at next level, right associativity).
Notation "m ;;; k" := (bind m (fun _ => k))
  (at level 100, right associativity).

(** ** Primitives *)

(** [requests.get(url)]: the call is recorded; a string that answers gives
    its body, anything else raises. *)
Definition requests_get (url : pyval) : M str :=
  fun w =>
    let w' := set_net_log (net_log w ++ [url]) w in
    match url with
    | PStr u =>
        match remote w !! u with
        | Some body => (Ret body, w')
        | None => (Raise RequestException, w')
        end
    | _ => (Raise RequestException, w')
    end.

(** [resp.json()] *)
Definition resp_json `{PyLib} (body : str) : M pyval :=
  match response_json body with
  | Some v => ret v
  | None => raise JSONDecodeError
  end.

(** [print] of the arguments [args], separated by [sp]. *)
Definition print `{PyLib} (args : list pyval) (sp : str) : M unit :=
  fun w => (Ret tt, set_stdout (stdout w ++ str_join sp (map py_str args) ++ [nl]) w).

(** [warn(msg)] under the default filter: the warning is emitted and the
    program goes on. *)
Definition warn (msg : str) : M unit :=
  fun w => (Ret tt, set_warnings (warnings w ++ [msg]) w).

(** [os.path.join(a, b)] (posixpath) *)
Definition os_path_join (a b : str) : str :=
  if str_startswith [sep] b then b
  else if bool_decide (a = []) || str_endswith_sep a then a ++ b
  else a ++ sep :: b.

(** [os.path.exists(p)] *)
Definition os_path_exists (p : str) : M bool :=
  fun w => (Ret (match fs w !! p with Some _ => true | None => false end), w).

(** [open(p, 'r')]: the text of the file. *)
Definition open_r (p : str) : M str :=
  fun w =>
    match fs w !! p with
    | Some (File c) =>
        if bool_decide (p ∈ unreadable w) then (Raise OSError, w) else (Ret c, w)
    | _ => (Raise OSError, w)
    end.

(** [open(p, 'w')]: the file is created or emptied; the handle is its path. *)
Definition open_w (p : str) : M str :=
  fun w =>
    match fs w !! p with
    | Some Dir => (Raise OSError, w)
    | _ =>
        if bool_decide (p ∈ unwritable w) then (Raise OSError, w)
        else (Ret p, set_fs (<[p := File []]> (fs w)) w)
    end.

(** [f.write(text)] on a handle of [open_w]. *)
Definition file_write (f : str) (text : str) : M unit :=
  fun w =>
    match fs w !! f with
    | Some (File c) => (Ret tt, set_fs (<[f := File (c ++ text)]> (fs w)) w)
    | _ => (Raise OSError, w)
    end.

(** [json.load(fp)] on the text read from [fp]. *)
Definition json_load_text `{PyLib} (text : str) : M pyval :=
  match json_load text with
  | Some v => ret v
  | None => raise JSONDecodeError
  end.

(** [json.dump(v, f)] *)
Definition json_dump_to `{PyLib} (v : pyval) (f : str) : M unit :=
  match json_dump v with
  | Some text => file_write f text
  | None => raise DumpError
  end.

(** [f.close()] *)
Definition file_close (f : str) : M unit := ret tt.

(** [convert.dict_to_hypergraph(data, nodetype=..., edgetype=..., max_order=...)] *)
Definition convert_outcome `{XgiConvert} (r : Hypergraph + str) : outcome Hypergraph :=
  match r with
  | inl h => Ret h
  | inr msg => Raise (ConverterError msg)
  end.

(** ** The module *)

Definition index_url : str :=
  lit "https://gitlab.com/complexgroupinteractions/xgi-data/-/raw/main/index.json?inline=false".

#[global] Arguments index_url : simpl never.

(** The text of the warning of line 48. *)
Definition no_local_copy (cfp : str) : str :=
  lit "No local copy was found at " ++ cfp ++
  lit ". The data is requested from the xgi-data repository instead. To download a local copy, use `download_xgi_data`.".

#[global] Arguments no_local_copy : simpl never.
#[global] Arguments DatasetNotFound : simpl never.

(** Lines 78-108. *)
Definition _request_from_xgi_data `{PyLib} (dataset : str) : M pyval :=
  resp <- requests_get (PStr index_url) ;;
  index <- resp_json resp ;;
  let key := str_lower dataset in
  found <- lift (py_contains key index) ;;
  (if negb found then
     print [PStr (lit "Valid dataset names:")] (lit " ") ;;;
     names <- lift (py_iter index) ;;
     print names [nl] ;;;
     raise DatasetNotFound
   else ret tt) ;;;
  entry <- lift (py_getitem index key) ;;
  url <- lift (py_getitem entry (lit "url")) ;;
  resp <- requests_get url ;;
  resp_json resp.

(** The path of the local copy (lines 44 and 73). *)
Definition cache_path (path dataset : str) : str :=
  os_path_join path (dataset ++ lit ".json").

(** Lines 10-55. *)
Definition load_xgi_data `{PyLib} `{XgiConvert}
    (dataset path : str) (read : bool)
    (nodetype edgetype : option cast) (max_order : option Z) : M Hypergraph :=
  data <- (if read then
             let cfp := cache_path path dataset in
             found <- os_path_exists cfp ;;
             if (found : bool) then
               text <- open_r cfp ;;
               json_load_text text
             else
               warn (no_local_copy cfp) ;;;
               _request_from_xgi_data dataset
           else _request_from_xgi_data dataset) ;;
  lift (convert_outcome (dict_to_hypergraph data nodetype edgetype max_order)).

(** Lines 58-75. *)
Definition download_xgi_data `{PyLib} (dataset path : str) : M unit :=
  jsondata <- _request_from_xgi_data dataset ;;
  jsonfile <- open_w (cache_path path dataset) ;;
  json_dump_to jsondata jsonfile ;;;
  file_close jsonfile.

(** ** A sample instance

    A reader and a writer for JSON without floats and without escapes in
    strings (the writer separates items as [json.dump] does by default), a
    converter that reads the edges under the key edge-dict, and a world with
    one dataset on the remote end.  The statements below are about every
    [PyLib] and [XgiConvert]; the sample serves to run the module. *)

Module Sample.

(** A text in which ' stands for the double quote. *)
Definition jtext (s : string) : str :=
  map (fun c => if c =? 39 then 34 else c) (lit s).

Definition quoted (s : str) : str := 34 :: s ++ [34].

Definition plain (s : str) : bool :=
  forallb (fun c => negb (c =? 34) && negb (c =? 92) && (32 <=? c)) s.

Fixpoint dec_digits (fuel : nat) (n : N) (acc : str) : str :=
  match fuel with
  | O => acc
  | S f =>
      let d := 48 + n mod 10 in
      if n <? 10 then d :: acc else dec_digits f (n / 10) (d :: acc)
  end.

Definition dec (z : Z) : str :=
  let n := Z.abs_N z in
  (if (z <? 0)%Z then [45] else []) ++ dec_digits (S (N.to_nat (N.log2 n))) n [].

Fixpoint dumps (v : pyval) : option str :=
  match v with
  | PNone => Some (lit "null")
  | PBool true => Some (lit "true")
  | PBool false => Some (lit "false")
  | PInt z => Some (dec z)
  | PFloat _ => None
  | PStr s => if plain s then Some (quoted s) else None
  | PList items =>
      parts ← (fix go (l : list pyval) : option (list str) :=
                 match l with
                 | [] => Some []
                 | x :: r => t ← dumps x; ts ← go r; Some (t :: ts)
                 end) items;
      Some (91 :: str_join (lit ", ") parts ++ [93])
  | PDict items =>
      parts ← (fix go (l : list (str * pyval)) : option (list str) :=
                 match l with
                 | [] => Some []
                 | (k, x) :: r =>
                     if plain k
                     then t ← dumps x; ts ← go r; Some ((quoted k ++ lit ": " ++ t) :: ts)
                     else None
                 end) items;
      Some (123 :: str_join (lit ", ") parts ++ [125])
  end.

Fixpoint skip_ws (s : str) : str :=
  match s with
  | c :: r => if (c =? 32) || (c =? 10) then skip_ws r else s
  | [] => []
  end.

(** The string up to the closing quote, and the rest. *)
Fixpoint read_string (s : str) : option (str * str) :=
  match s with
  | [] => None
  | c :: r =>
      if c =? 34 then Some ([], r)
      else if (c =? 92) || (c <? 32) then None
      else '(t, r') ← read_string r; Some (c :: t, r')
  end.

Fixpoint read_digits (s : str) (acc : N) : N * str :=
  match s with
  | c :: r =>
      if (48 <=? c) && (c <=? 57) then read_digits r (10 * acc + (c - 48))
      else (acc, s)
  | [] => (acc, [])
  end.

Definition is_digit (c : N) : bool := (48 <=? c) && (c <=? 57).

Fixpoint read_value (fuel : nat) (s : str) : option (pyval * str) :=
  match fuel with
  | O => None
  | S f =>
      match skip_ws s with
      | 110 :: 117 :: 108 :: 108 :: r => Some (PNone, r)
      | 116 :: 114 :: 117 :: 101 :: r => Some (PBool true, r)
      | 102 :: 97 :: 108 :: 115 :: 101 :: r => Some (PBool false, r)
      | 34 :: r => '(t, r') ← read_string r; Some (PStr t, r')
      | 91 :: r =>
          match skip_ws r with
          | 93 :: r' => Some (PList [], r')
          | _ => '(l, r') ← read_items f r; Some (PList l, r')
          end
      | 123 :: r =>
          match skip_ws r with
          | 125 :: r' => Some (PDict [], r')
          | _ => '(l, r') ← read_members f r; Some (PDict l, r')
          end
      | 45 :: c :: r =>
          if is_digit c
          then let '(n, r') := read_digits (c :: r) 0 in Some (PInt (- Z.of_N n), r')
          else None
      | c :: r =>
          if is_digit c
          then let '(n, r') := read_digits (c :: r) 0 in Some (PInt (Z.of_N n), r')
          else None
      | [] => None
      end
  end
with read_items (fuel : nat) (s : str) : option (list pyval * str) :=
  match fuel with
  | O => None
  | S f =>
      '(v, r) ← read_value f s;
      match skip_ws r with
      | 44 :: r' => '(l, r'') ← read_items f r'; Some (v :: l, r'')
      | 93 :: r' => Some ([v], r')
      | _ => None
      end
  end
with read_members (fuel : nat) (s : str) : option (list (str * pyval) * str) :=
  match fuel with
  | O => None
  | S f =>
      match skip_ws s with
      | 34 :: r =>
          '(k, r1) ← read_string r;
          match skip_ws r1 with
          | 58 :: r2 =>
              '(v, r3) ← read_value f r2;
              match skip_ws r3 with
              | 44 :: r4 => '(l, r5) ← read_members f r4; Some ((k, v) :: l, r5)
              | 125 :: r4 => Some ([(k, v)], r4)
              | _ => None
              end
          | _ => None
          end
      | _ => None
      end
  end.

Definition loads (text : str) : option pyval :=
  '(v, r) ← read_value (S (length text)) text;
  match skip_ws r with
  | [] => Some v
  | _ => None
  end.

#[export] Instance py : PyLib := {|
  lower_wide := id;
  upper_wide := id;
  repr := fun v => default [] (dumps v);
  response_json := loads;
  json_load := loads;
  json_dump := dumps;
|}.

(** An edge is a key of the edge dictionary with its list of members;
    [max_order] keeps the edges of at most that order. *)
Definition edges_of (max_order : option Z) (items : list (str * pyval))
  : list (str * list pyval) :=
  flat_map (fun kv =>
    match kv.2 with
    | PList members =>
        match max_order with
        | Some m => if (Z.of_nat (length members) <=? m + 1)%Z then [(kv.1, members)] else []
        | None => [(kv.1, members)]
        end
    | _ => []
    end) items.

#[export] Instance conv : XgiConvert := {|
  Hypergraph := list (str * list pyval);
  cast := unit;
  dict_to_hypergraph := fun data _ _ max_order =>
    match py_getitem data (lit "edge-dict") with
    | Ret (PDict items) => inl (edges_of max_order items)
    | _ => inr (lit "Failed to import edge dictionary.")
    end;
|}.

Definition enron_url : str := lit "https://example/email-enron.json".

Definition index_body : str :=
  jtext "{'email-enron': {'url': 'https://example/email-enron.json'}}".

Definition enron_body : str :=
  jtext "{'edge-dict':{'0':[1,2,3],'1':[2,4]}}".

Definition enron_data : pyval :=
  PDict [(lit "edge-dict",
          PDict [(lit "0", PList [PInt 1; PInt 2; PInt 3]);
                 (lit "1", PList [PInt 2; PInt 4])])].

Definition enron_graph : list (str * list pyval) :=
  [(lit "0", [PInt 1; PInt 2; PInt 3]); (lit "1", [PInt 2; PInt 4])].

(** The remote end serves the index and one dataset; nothing is stored
    locally and nothing has happened yet. *)
Definition net : gmap str str :=
  <[index_url := index_body]> (<[enron_url := enron_body]> ∅).

Definition w0 : world := World ∅ ∅ ∅ net [] [] [].

(** The same with an older copy of the dataset stored under /tmp. *)
Definition stale : str := jtext "{'edge-dict': {'9': [7, 8]}}".

Definition w_cached : world :=
  World (<[lit "/tmp/email-enron.json" := File stale]> ∅) ∅ ∅ net [] [] [].

(** The same with nothing reachable. *)
Definition w_offline : world :=
  World (<[lit "/tmp/email-enron.json" := File stale]> ∅) ∅ ∅ ∅ [] [] [].


(** An index whose one key has the letter U+00DF. *)
Definition strasse : str := lit "stra" ++ [223] ++ lit "e".

Definition strasse_index : str :=
  jtext "{'" ++ strasse ++ jtext "': {'url': 'https://example/email-enron.json'}}".

Definition w_strasse : world :=
  World ∅ ∅ ∅ (<[index_url := strasse_index]> (<[enron_url := enron_body]> ∅)) [] [] [].

(** The destination under /tmp refuses to be written. *)
Definition w_locked : world :=
  World ∅ ∅ {[lit "/tmp/email-enron.json"]} net [] [] [].

(** The index URL answers with a page that is not JSON. *)
Definition w_garbled : world :=
  World ∅ ∅ ∅ (<[index_url := lit "<html>not found</html>"]> ∅) [] [] [].

(** The index URL answers with a number. *)
Definition w_scalar : world :=
  World ∅ ∅ ∅ (<[index_url := lit "42"]> ∅) [] [] [].

(** The entry of the dataset has no url. *)
Definition w_nourl : world :=
  World ∅ ∅ ∅ (<[index_url := jtext "{'email-enron': {'href': 'elsewhere'}}"]> ∅) [] [] [].

End Sample.

(** * Properties *)

(** Unfolds the monad and the primitives, leaving the matches of the code. *)
Ltac run :=
  unfold load_xgi_data, download_xgi_data, _request_from_xgi_data,
    json_dump_to, json_load_text, file_close, file_write, open_w, open_r,
    os_path_exists, warn, print, resp_json, requests_get,
    bind, lift, ret, raise;
  simpl.

Section Strings.

Lemma is_ascii_latin1 (s : str) : is_ascii s = true -> is_latin1 s = true.
Proof.
  induction s as [|c s IH]; simpl; [done|].
  rewrite !andb_true_iff. intros [Hc Hs]. split; [|auto].
  apply N.ltb_lt in Hc. apply N.ltb_lt. lia.
Qed.

Lemma upper_cp_ascii (c : N) :
  c < 128 -> exists c', upper_cp c = [c'] /\ c' < 128 /\ lower_cp c' = lower_cp c.
Proof.
  intros Hc. unfold upper_cp.
  destruct ((97 <=? c) && (c <=? 122)) eqn:E.
  - apply andb_true_iff in E as [E1 E2].
    apply N.leb_le in E1, E2. exists (c - 32). split; [done|]. split; [lia|].
    unfold lower_cp.
    replace ((65 <=? c - 32) && (c - 32 <=? 90)) with true
      by (symmetry; apply andb_true_iff; split; apply N.leb_le; lia).
    replace ((65 <=? c) && (c <=? 90)) with false
      by (symmetry; apply andb_false_iff; right; apply N.leb_gt; lia).
    replace ((192 <=? c) && (c <=? 222)) with false
      by (symmetry; apply andb_false_iff; left; apply N.leb_gt; lia).
    simpl. lia.
  - replace (c =? 181) with false by (symmetry; apply N.eqb_neq; lia).
    replace (c =? 223) with false by (symmetry; apply N.eqb_neq; lia).
    replace ((224 <=? c) && (c <=? 254)) with false
      by (symmetry; apply andb_false_iff; left; apply N.leb_gt; lia).
    replace (c =? 255) with false by (symmetry; apply N.eqb_neq; lia).
    simpl. exists c. done.
Qed.

Lemma upper_ascii (s : str) :
  is_ascii s = true ->
  is_ascii (flat_map upper_cp s) = true /\
  map lower_cp (flat_map upper_cp s) = map lower_cp s.
Proof.
  induction s as [|c s IH]; simpl; [done|].
  rewrite andb_true_iff. intros [Hc Hs]. apply N.ltb_lt in Hc.
  destruct (upper_cp_ascii c Hc) as (c' & -> & Hc' & Hl).
  destruct (IH Hs) as [IH1 IH2]. simpl. split.
  - apply andb_true_iff. split; [by apply N.ltb_lt|done].
  - by rewrite Hl, IH2.
Qed.

Context `{PyLib}.

(** Lower-casing undoes upper-casing on ASCII names. *)
Lemma lower_upper_ascii (s : str) :
  is_ascii s = true -> str_lower (str_upper s) = str_lower s.
Proof.
  intros Hs. destruct (upper_ascii s Hs) as [Hu Hl].
  unfold str_lower, str_upper.
  rewrite (is_ascii_latin1 s Hs), (is_ascii_latin1 _ Hu). done.
Qed.


End Strings.

Section Paths.




End Paths.

(** An outcome and the world it comes with. *)
Lemma run_ret {A} (m : M A) (w : world) (o : outcome A) :
  (m w).1 = o -> m w = (o, (m w).2).
Proof. intros <-. by destruct (m w). Qed.

Section Request.

Context `{PyLib}.

(** Subscripting raises nothing but [TypeError] and [KeyError]. *)
Lemma py_getitem_raises (c : pyval) (key : str) (e : exn) :
  py_getitem c key = Raise e -> e = TypeError \/ e = KeyError key.
Proof.
  destruct c; simpl; try (intros [= <-]; by left).
  destruct (dict_get key items); intros [= <-]. by right.
Qed.

(** What [print] shows of the keys of a dict. *)
Lemma py_str_keys (items : list (str * pyval)) :
  map py_str (map PStr (dict_keys items)) = dict_keys items.
Proof. rewrite map_map. simpl. apply map_id. Qed.

(** The helper touches neither the file system nor the warnings. *)
Lemma request_frame (dataset : str) (w : world) :
  let w' := (_request_from_xgi_data dataset w).2 in
  fs w' = fs w /\ unreadable w' = unreadable w /\ unwritable w' = unwritable w /\
  remote w' = remote w /\ warnings w' = warnings w.
Proof.
  run.
  destruct (remote w !! index_url) as [body|]; simpl; [|done].
  destruct (response_json body) as [index|]; simpl; [|done].
  destruct (py_contains (str_lower dataset) index) as [[|]|]; simpl;
    [| destruct (py_iter index); simpl; done | done].
  destruct (py_getitem index (str_lower dataset)) as [entry|]; simpl; [|done].
  destruct (py_getitem entry (lit "url")) as [[| | | |u| |]|]; simpl; try done.
  - destruct (remote w !! u) as [b|]; simpl; [|done].
    destruct (response_json b); simpl; done.
Qed.

(** The calls of [requests.get] the helper makes: the index first, then at
    most one more. *)
Lemma request_net_log (dataset : str) (w : world) :
  exists rest,
    net_log (_request_from_xgi_data dataset w).2 = net_log w ++ PStr index_url :: rest /\
    (length rest <= 1)%nat.
Proof.
  assert (forall A (l : list A) a b, (l ++ [a]) ++ [b] = l ++ [a; b]) as Happ
    by (intros; by rewrite <- app_assoc).
  pose proof (Nat.le_0_1) as H01.
  run.
  destruct (remote w !! index_url) as [body|]; simpl; [|by exists []].
  destruct (response_json body) as [index|]; simpl; [|by exists []].
  destruct (py_contains (str_lower dataset) index) as [[|]|]; simpl;
    [| destruct (py_iter index); simpl; by exists [] | by exists []].
  destruct (py_getitem index (str_lower dataset)) as [entry|]; simpl; [|by exists []].
  destruct (py_getitem entry (lit "url")) as [url|]; simpl; [|by exists []].
  exists [url]. split; [|simpl; lia].
  destruct url as [| | | |u| |]; simpl; try by rewrite Happ.
  destruct (remote w !! u) as [b|]; simpl; [|by rewrite Happ].
  destruct (response_json b); simpl; by rewrite Happ.
Qed.


(** A name the index does not hold. *)
Lemma request_unknown (w : world) (dataset body : str) (items : list (str * pyval)) :
  remote w !! index_url = Some body ->
  response_json body = Some (PDict items) ->
  dict_get (str_lower dataset) items = None ->
  _request_from_xgi_data dataset w =
    (Raise DatasetNotFound,
     set_stdout (stdout w ++ (lit "Valid dataset names:" ++ [nl]) ++
                 (str_join [nl] (dict_keys items) ++ [nl]))
       (set_net_log (net_log w ++ [PStr index_url]) w)).
Proof.
  intros Hi Hj Hk. run.
  rewrite Hi; simpl. rewrite Hj; simpl. rewrite Hk; simpl.
  rewrite py_str_keys. unfold set_stdout, set_net_log; simpl.
  by rewrite <- !app_assoc.
Qed.

(** The helper reads the name through [str_lower] only. *)
Lemma request_by_key (n1 n2 : str) (w : world) :
  str_lower n1 = str_lower n2 ->
  _request_from_xgi_data n1 w = _request_from_xgi_data n2 w.
Proof. intros E. unfold _request_from_xgi_data. by rewrite E. Qed.

End Request.

Section Load.

Context `{PyLib} `{XgiConvert}.

(** With a node at the path of the local copy, [load_xgi_data] leaves the
    world as it is. *)
Lemma load_hit_world (dataset path : str) (nt et : option cast) (mo : option Z)
    (w : world) (nd : node) :
  fs w !! cache_path path dataset = Some nd ->
  (load_xgi_data dataset path true nt et mo w).2 = w.
Proof.
  intros Hn. run. repeat (rewrite Hn; simpl).
  destruct nd as [c|]; simpl; [|done].
  destruct (bool_decide _); simpl; [done|].
  destruct (json_load c); simpl; done.
Qed.

(** With a readable file there, the result is the conversion of what the
    file parses to. *)
Lemma load_hit (dataset path c : str) (nt et : option cast) (mo : option Z)
    (w : world) :
  fs w !! cache_path path dataset = Some (File c) ->
  cache_path path dataset ∉ unreadable w ->
  load_xgi_data dataset path true nt et mo w =
    (match json_load c with
     | Some data => convert_outcome (dict_to_hypergraph data nt et mo)
     | None => Raise JSONDecodeError
     end, w).
Proof.
  intros Hn Hr. run. repeat (rewrite Hn; simpl).
  rewrite bool_decide_eq_false_2 by done.
  destruct (json_load c); simpl; done.
Qed.

(** Without a node there, [load_xgi_data] warns and asks the helper. *)
Lemma load_miss (dataset path : str) (nt et : option cast) (mo : option Z)
    (w : world) :
  fs w !! cache_path path dataset = None ->
  load_xgi_data dataset path true nt et mo w =
    (warn (no_local_copy (cache_path path dataset)) ;;;
     data <- _request_from_xgi_data dataset ;;
     lift (convert_outcome (dict_to_hypergraph data nt et mo))) w.
Proof.
  intros Hn. unfold load_xgi_data, os_path_exists, bind at 1 2 3 4 5.
  rewrite Hn. unfold warn, bind. simpl.
  destruct (_request_from_xgi_data dataset _) as [[data|e] w']; done.
Qed.

Lemma load_miss_world (dataset path : str) (nt et : option cast) (mo : option Z)
    (w : world) :
  fs w !! cache_path path dataset = None ->
  (load_xgi_data dataset path true nt et mo w).2 =
  (_request_from_xgi_data dataset
     (set_warnings (warnings w ++ [no_local_copy (cache_path path dataset)]) w)).2.
Proof.
  intros Hn. rewrite load_miss by done. unfold warn, bind, lift. simpl.
  destruct (_request_from_xgi_data dataset _) as [[data|e] w']; done.
Qed.

End Load.

Section Download.

Context `{PyLib}.

(** [download_xgi_data] fails as the helper does, in the world the helper
    leaves. *)
Lemma download_fetch_failed (dataset path : str) (w w1 : world) (e : exn) :
  _request_from_xgi_data dataset w = (Raise e, w1) ->
  download_xgi_data dataset path w = (Raise e, w1).
Proof. intros Hr. unfold download_xgi_data, bind. by rewrite Hr. Qed.

(** After a fetch that returns, with a destination that can be written, the
    file holds the dump of the fetched value. *)
Lemma download_fetched (dataset path text : str) (data : pyval) (w w1 : world) :
  _request_from_xgi_data dataset w = (Ret data, w1) ->
  json_dump data = Some text ->
  fs w !! cache_path path dataset <> Some Dir ->
  cache_path path dataset ∉ unwritable w ->
  download_xgi_data dataset path w =
    (Ret tt, set_fs (<[cache_path path dataset := File text]> (fs w)) w1).
Proof.
  intros Hr Hd Hdir Hw.
  destruct (request_frame dataset w) as (Hfs & _ & Huw & _).
  rewrite Hr in Hfs, Huw. simpl in Hfs, Huw.
  unfold download_xgi_data, bind. rewrite Hr.
  unfold open_w. rewrite Hfs, Huw.
  rewrite bool_decide_eq_false_2 by done.
  assert (match fs w !! cache_path path dataset with
          | Some Dir => (@Raise str OSError, w1)
          | _ => (Ret (cache_path path dataset),
                  set_fs (<[cache_path path dataset := File []]> (fs w)) w1)
          end = (Ret (cache_path path dataset),
                 set_fs (<[cache_path path dataset := File []]> (fs w)) w1)) as ->.
  { destruct (fs w !! cache_path path dataset) as [[c|]|]; done. }
  unfold json_dump_to. rewrite Hd. unfold file_write, file_close, ret. simpl.
  rewrite lookup_insert_eq. simpl. by rewrite insert_insert_eq.
Qed.

(** A download that returns has fetched a value and written its dump. *)
Lemma download_returned (dataset path : str) (w w2 : world) :
  download_xgi_data dataset path w = (Ret tt, w2) ->
  exists data text w1,
    _request_from_xgi_data dataset w = (Ret data, w1) /\
    json_dump data = Some text /\
    w2 = set_fs (<[cache_path path dataset := File text]> (fs w)) w1.
Proof.
  intros Hd.
  destruct (request_frame dataset w) as (Hfs & _ & Huw & _).
  destruct (_request_from_xgi_data dataset w) as [[data|e] w1] eqn:Hr;
    [|rewrite (download_fetch_failed dataset path w w1 e Hr) in Hd; done].
  simpl in Hfs, Huw.
  unfold download_xgi_data, bind in Hd. rewrite Hr in Hd.
  unfold open_w in Hd. rewrite Hfs, Huw in Hd.
  destruct (json_dump data) as [text|] eqn:Hj.
  - exists data, text, w1. split; [done|]. split; [done|].
    destruct (fs w !! cache_path path dataset) as [[c|]|] eqn:Hn; try done;
      (destruct (bool_decide (cache_path path dataset ∈ unwritable w)); [done|]);
      unfold json_dump_to in Hd; rewrite Hj in Hd;
      unfold file_write, file_close, ret in Hd; simpl in Hd;
      rewrite lookup_insert_eq in Hd; simpl in Hd;
      rewrite insert_insert_eq in Hd; injection Hd as <-; reflexivity.
  - exfalso.
    destruct (fs w !! cache_path path dataset) as [[c|]|] eqn:Hn; try done;
      (destruct (bool_decide (cache_path path dataset ∈ unwritable w)); [done|]);
      unfold json_dump_to in Hd; rewrite Hj in Hd; done.
Qed.

End Download.

(** * The claims *)

Section Claims.

Context `{PyLib} `{XgiConvert}.


(** C2.  With [read] true and a readable file at the path of the local
    copy, [load_xgi_data] returns the conversion of what the text of the
    file parses to (or the parse error) and makes no call of
    [requests.get]: the world, its record of calls included, is unchanged. *)
Theorem load_cached_no_network (w : world) (dataset path c : str)
    (nt et : option cast) (mo : option Z) :
  fs w !! cache_path path dataset = Some (File c) ->
  cache_path path dataset ∉ unreadable w ->
  let r := load_xgi_data dataset path true nt et mo w in
  r.1 = match json_load c with
        | Some data => convert_outcome (dict_to_hypergraph data nt et mo)
        | None => Raise JSONDecodeError
        end /\
  net_log r.2 = net_log w /\ r.2 = w.
Proof.
  intros Hn Hr r. subst r. rewrite (load_hit dataset path c nt et mo w Hn Hr).
  done.
Qed.

(** C3, amended.  For an ASCII name whose lower case is a key of the
    fetched index, the helper called with the upper-cased name and with the
    name gives the same outcome and the same world, and that outcome is not
    the error of line 104. *)
Theorem request_upper_ascii (w : world) (dataset body : str)
    (items : list (str * pyval)) (entry : pyval) :
  is_ascii dataset = true ->
  remote w !! index_url = Some body ->
  response_json body = Some (PDict items) ->
  dict_get (str_lower dataset) items = Some entry ->
  _request_from_xgi_data (str_upper dataset) w = _request_from_xgi_data dataset w /\
  (_request_from_xgi_data dataset w).1 <> Raise DatasetNotFound.
Proof.
  intros Ha Hi Hj Hk. split.
  - apply request_by_key. by apply lower_upper_ascii.
  - run. rewrite Hi; simpl. rewrite Hj; simpl. rewrite Hk; simpl.
    destruct (py_getitem entry (lit "url")) as [[| | | |u| |]|e] eqn:Hu;
      simpl; try done.
    + destruct (remote w !! u) as [b|]; simpl; [|done].
      destruct (response_json b); simpl; done.
    + destruct (py_getitem_raises _ _ _ Hu) as [->| ->]; done.
Qed.

(** C4.  After a download that returned, loading the same name from the
    same directory with [read] true gives the conversion of the value the
    download fetched, provided [json.load] reads that value back from the
    text [json.dump] wrote for it and the file may be read. *)
Theorem download_then_load (w : world) (dataset path text : str)
    (data : pyval) (nt et : option cast) (mo : option Z) :
  (_request_from_xgi_data dataset w).1 = Ret data ->
  (download_xgi_data dataset path w).1 = Ret tt ->
  json_dump data = Some text ->
  json_load text = Some data ->
  cache_path path dataset ∉ unreadable w ->
  let w2 := (download_xgi_data dataset path w).2 in
  load_xgi_data dataset path true nt et mo w2 =
    (convert_outcome (dict_to_hypergraph data nt et mo), w2).
Proof.
  intros Hr Hd Hj Hl Hu w2. subst w2.
  destruct (download_returned dataset path w _ (run_ret _ _ _ Hd))
    as (data' & text' & w1' & Hr' & Hj' & ->).
  rewrite Hr' in Hr. injection Hr as ->.
  rewrite Hj in Hj'. injection Hj' as <-.
  destruct (request_frame dataset w) as (_ & Hun & _).
  rewrite Hr' in Hun. simpl in Hun.
  rewrite (load_hit dataset path text nt et mo).
  - by rewrite Hl.
  - simpl. apply lookup_insert_eq.
  - simpl. by rewrite Hun.
Qed.


(** C6, amended.  With [read] true and nothing at the path of the local
    copy, [load_xgi_data] emits the warning of line 48 once and calls
    [requests.get] for the index once; exactly one more call follows, for
    the dataset, when the index parses to a dict that holds the lower-cased
    name with a url, none follows when that dict does not hold the name,
    and at most one follows in any case. *)
Theorem load_miss_warns_and_fetches (w : world) (dataset path : str)
    (nt et : option cast) (mo : option Z) :
  fs w !! cache_path path dataset = None ->
  let w' := (load_xgi_data dataset path true nt et mo w).2 in
  warnings w' = warnings w ++ [no_local_copy (cache_path path dataset)] /\
  (exists rest, net_log w' = net_log w ++ PStr index_url :: rest /\ (length rest <= 1)%nat) /\
  (forall body items entry url,
     remote w !! index_url = Some body ->
     response_json body = Some (PDict items) ->
     dict_get (str_lower dataset) items = Some entry ->
     py_getitem entry (lit "url") = Ret url ->
     net_log w' = net_log w ++ [PStr index_url; url]) /\
  (forall body items,
     remote w !! index_url = Some body ->
     response_json body = Some (PDict items) ->
     dict_get (str_lower dataset) items = None ->
     net_log w' = net_log w ++ [PStr index_url]).
Proof.
  intros Hn w'. subst w'. rewrite (load_miss_world dataset path nt et mo w Hn).
  set (w1 := set_warnings _ w).
  split; [|split; [|split]].
  - destruct (request_frame dataset w1) as (_ & _ & _ & _ & ->). done.
  - apply (request_net_log dataset w1).
  - intros body items entry url Hi Hj Hk Hu.
    unfold _request_from_xgi_data, bind, lift, requests_get, resp_json, ret, raise.
    simpl. rewrite Hi; simpl. rewrite Hj; simpl. rewrite Hk; simpl. rewrite Hu; simpl.
    assert (forall A (l : list A) a b, (l ++ [a]) ++ [b] = l ++ [a; b]) as Happ
      by (intros; by rewrite <- app_assoc).
    destruct url as [| | | |u| |]; simpl; try by rewrite Happ.
    destruct (remote w !! u) as [b|]; simpl; [|by rewrite Happ].
    destruct (response_json b); simpl; by rewrite Happ.
  - intros body items Hi Hj Hk.
    by rewrite (request_unknown w1 dataset body items Hi Hj Hk).
Qed.



(** C9.  When the helper raises, whether fetching the index, looking the
    name up or fetching the dataset, [download_xgi_data] raises the same
    and has not touched the file system: what was at the destination is
    there unchanged. *)
Theorem download_failure_keeps_files (w : world) (dataset path : str) (e : exn) :
  (_request_from_xgi_data dataset w).1 = Raise e ->
  let r := download_xgi_data dataset path w in
  r.1 = Raise e /\
  r.2 = (_request_from_xgi_data dataset w).2 /\
  fs r.2 = fs w /\
  fs r.2 !! cache_path path dataset = fs w !! cache_path path dataset.
Proof.
  intros Hr r. subst r.
  rewrite (download_fetch_failed dataset path w _ e (run_ret _ _ _ Hr)). simpl.
  destruct (request_frame dataset w) as (Hfs & _).
  by rewrite Hfs.
Qed.


(** The helper writes no file and emits no warning, whatever it is asked
    and whatever the remote end answers. *)
Theorem request_leaves_files (w : world) (dataset : str) :
  fs (_request_from_xgi_data dataset w).2 = fs w /\
  warnings (_request_from_xgi_data dataset w).2 = warnings w.
Proof.
  destruct (request_frame dataset w) as (Hfs & _ & _ & _ & Hw). done.
Qed.

(** Every call of the helper asks [requests.get] for the index first and
    for at most one more URL. *)
Theorem request_index_first (w : world) (dataset : str) :
  exists rest,
    net_log (_request_from_xgi_data dataset w).2 = net_log w ++ PStr index_url :: rest /\
    (length rest <= 1)%nat.
Proof. apply request_net_log. Qed.

(** With [read] false, [load_xgi_data] is the helper followed by the
    converter: the local copy is not looked at and no warning is emitted. *)
Theorem load_without_read (w : world) (dataset path : str)
    (nt et : option cast) (mo : option Z) :
  load_xgi_data dataset path false nt et mo w =
    (data <- _request_from_xgi_data dataset ;;
     lift (convert_outcome (dict_to_hypergraph data nt et mo))) w /\
  warnings (load_xgi_data dataset path false nt et mo w).2 = warnings w.
Proof.
  split; [reflexivity|].
  unfold load_xgi_data, bind, lift.
  destruct (request_frame dataset w) as (_ & _ & _ & _ & Hw).
  destruct (_request_from_xgi_data dataset w) as [[data|e] w1]; simpl in *; done.
Qed.

End Claims.

(** * Further properties of the three functions *)

Section Helper.

Context `{PyLib}.

(** The outcome of the helper is read off the remote end alone. *)
Lemma request_outcome_remote (dataset : str) (w w' : world) :
  remote w = remote w' ->
  (_request_from_xgi_data dataset w).1 = (_request_from_xgi_data dataset w').1.
Proof.
  intros Hr. run. rewrite <- Hr.
  destruct (remote w !! index_url) as [body|]; simpl; [|done].
  destruct (response_json body) as [index|]; simpl; [|done].
  destruct (py_contains (str_lower dataset) index) as [[|]|]; simpl;
    [| destruct (py_iter index); simpl; done | done].
  destruct (py_getitem index (str_lower dataset)) as [entry|]; simpl; [|done].
  destruct (py_getitem entry (lit "url")) as [[| | | |u| |]|]; simpl; try done.
  rewrite <- Hr.
  destruct (remote w !! u) as [b|]; simpl; [|done].
  destruct (response_json b); simpl; done.
Qed.

(** The helper consults neither the file system nor what was printed,
    logged or warned before: in two worlds with the same remote end it has
    the same outcome. *)
Theorem request_reads_remote_only (dataset : str) (w w' : world) :
  remote w = remote w' ->
  (_request_from_xgi_data dataset w).1 = (_request_from_xgi_data dataset w').1.
Proof. apply request_outcome_remote. Qed.

(** When the index URL does not answer, the helper raises what
    [requests.get] raised, after that one call and without printing. *)
Theorem request_index_unreachable (dataset : str) (w : world) :
  remote w !! index_url = None ->
  _request_from_xgi_data dataset w =
    (Raise RequestException, set_net_log (net_log w ++ [PStr index_url]) w).
Proof. intros Hi. run. by rewrite Hi. Qed.

(** When the index URL answers with a body that is not JSON, the helper
    raises the decoding error, without looking the name up, without
    printing and without a second call. *)
Theorem request_index_not_json (dataset body : str) (w : world) :
  remote w !! index_url = Some body ->
  response_json body = None ->
  _request_from_xgi_data dataset w =
    (Raise JSONDecodeError, set_net_log (net_log w ++ [PStr index_url]) w).
Proof. intros Hi Hj. run. rewrite Hi; simpl. by rewrite Hj. Qed.

(** When the index parses to a value that cannot be iterated ([None], a
    boolean, a number), the test of line 101 raises [TypeError]: nothing is
    printed and no dataset is fetched. *)
Theorem request_index_not_iterable (dataset body : str) (index : pyval) (w : world) :
  remote w !! index_url = Some body ->
  response_json body = Some index ->
  py_iter index = Raise TypeError ->
  _request_from_xgi_data dataset w =
    (Raise TypeError, set_net_log (net_log w ++ [PStr index_url]) w).
Proof.
  intros Hi Hj Hit. run. rewrite Hi; simpl. rewrite Hj; simpl.
  destruct index; simpl in *; try done.
Qed.

(** When the index holds the lower-cased name with an entry that is a dict
    without the key url, the helper raises [KeyError] for url: nothing is
    printed and no dataset is fetched. *)
Theorem request_entry_without_url (dataset body : str)
    (items fields : list (str * pyval)) (w : world) :
  remote w !! index_url = Some body ->
  response_json body = Some (PDict items) ->
  dict_get (str_lower dataset) items = Some (PDict fields) ->
  dict_get (lit "url") fields = None ->
  _request_from_xgi_data dataset w =
    (Raise (KeyError (lit "url")), set_net_log (net_log w ++ [PStr index_url]) w).
Proof.
  intros Hi Hj Hk Hu. run. rewrite Hi; simpl. rewrite Hj; simpl.
  rewrite Hk; simpl. by rewrite Hu.
Qed.


End Helper.

Section Paths_and_files.

Context `{PyLib} `{XgiConvert}.



(** [load_xgi_data] never writes: whatever its arguments and its outcome,
    the file system is as it was. *)
Theorem load_never_writes (w : world) (dataset path : str) (read : bool)
    (nt et : option cast) (mo : option Z) :
  fs (load_xgi_data dataset path read nt et mo w).2 = fs w.
Proof.
  destruct read.
  - destruct (fs w !! cache_path path dataset) as [nd|] eqn:Hn.
    + by rewrite (load_hit_world dataset path nt et mo w nd Hn).
    + rewrite (load_miss_world dataset path nt et mo w Hn).
      destruct (request_frame dataset
                  (set_warnings (warnings w ++ [no_local_copy (cache_path path dataset)]) w))
        as (-> & _). done.
  - unfold load_xgi_data, bind, lift.
    destruct (request_frame dataset w) as (Hfs & _).
    destruct (_request_from_xgi_data dataset w) as [[data|e] w1]; simpl in *; done.
Qed.

(** With [read] false the local copy plays no part: replacing the whole
    file system changes neither the outcome nor the calls made, and no
    warning is emitted. *)
Theorem load_without_read_ignores_files (w : world) (f : gmap str node)
    (dataset path : str) (nt et : option cast) (mo : option Z) :
  (load_xgi_data dataset path false nt et mo (set_fs f w)).1
    = (load_xgi_data dataset path false nt et mo w).1 /\
  warnings (load_xgi_data dataset path false nt et mo w).2 = warnings w.
Proof.
  unfold load_xgi_data, bind, lift.
  pose proof (request_outcome_remote dataset (set_fs f w) w eq_refl) as Ho.
  destruct (request_frame dataset w) as (_ & _ & _ & _ & Hw).
  destruct (_request_from_xgi_data dataset (set_fs f w)) as [[d1|e1] w1];
    destruct (_request_from_xgi_data dataset w) as [[d2|e2] w2];
    simpl in *; split; congruence.
Qed.


(** When the fetch returned but the destination is a directory or refuses
    to be written, [download_xgi_data] raises the error of [open] after
    the calls of the helper, and no file is created or changed. *)
Theorem download_unwritable (w : world) (dataset path : str) (data : pyval) :
  (_request_from_xgi_data dataset w).1 = Ret data ->
  fs w !! cache_path path dataset = Some Dir \/
    cache_path path dataset ∈ unwritable w ->
  let r := download_xgi_data dataset path w in
  r.1 = Raise OSError /\
  r.2 = (_request_from_xgi_data dataset w).2 /\
  fs r.2 = fs w.
Proof.
  intros Hr Hbad r. subst r.
  destruct (request_frame dataset w) as (Hfs & _ & Huw & _).
  unfold download_xgi_data, bind.
  rewrite (run_ret _ _ _ Hr) in *. simpl in Hfs, Huw.
  unfold open_w. rewrite Hfs, Huw.
  destruct Hbad as [Hd|Hu].
  - rewrite Hd. simpl. done.
  - rewrite bool_decide_eq_true_2 by done.
    destruct (fs w !! cache_path path dataset) as [[c|]|]; simpl; done.
Qed.

(** A download that returned found its destination writable. *)
Lemma download_returned_writable (dataset path : str) (w : world) :
  (download_xgi_data dataset path w).1 = Ret tt ->
  cache_path path dataset ∉ unwritable w.
Proof.
  intros Hd Hu.
  destruct (request_frame dataset w) as (Hfs & _ & Huw & _).
  unfold download_xgi_data, bind in Hd.
  destruct (_request_from_xgi_data dataset w) as [[data|e] w1]; [|done].
  simpl in Hfs, Huw. unfold open_w in Hd. rewrite Hfs, Huw in Hd.
  rewrite bool_decide_eq_true_2 in Hd by done.
  destruct (fs w !! cache_path path dataset) as [[c|]|]; simpl in Hd; done.
Qed.

(** Downloading again, with the remote end as it was, returns again and
    leaves the file system as the first download left it. *)
Theorem download_twice (w : world) (dataset path : str) :
  (download_xgi_data dataset path w).1 = Ret tt ->
  let w2 := (download_xgi_data dataset path w).2 in
  (download_xgi_data dataset path w2).1 = Ret tt /\
  fs (download_xgi_data dataset path w2).2 = fs w2.
Proof.
  intros Hd w2. subst w2.
  pose proof (download_returned_writable dataset path w Hd) as Hw.
  destruct (download_returned dataset path w _ (run_ret _ _ _ Hd))
    as (data & text & w1 & Hr & Hj & ->).
  destruct (request_frame dataset w) as (_ & _ & Huw & Hrem & _).
  rewrite Hr in Huw, Hrem. simpl in Huw, Hrem.
  set (w2 := set_fs _ w1).
  assert ((_request_from_xgi_data dataset w2).1 = Ret data) as Hr2.
  { rewrite (request_outcome_remote dataset w2 w) by (simpl; done). by rewrite Hr. }
  rewrite (download_fetched dataset path text data w2 _ (run_ret _ _ _ Hr2) Hj).
  - simpl. split; [done|]. apply insert_insert_eq.
  - simpl. rewrite lookup_insert_eq. done.
  - simpl. by rewrite Huw.
Qed.

End Paths_and_files.

(** * The claims at sample inputs *)

Section Instances.

Import Sample.


(** C2 at the stored copy under /tmp: the stored edge is returned and no
    call is made. *)
Lemma load_cached_no_network_witness :
  (load_xgi_data (lit "email-enron") (lit "/tmp") true None None None w_cached).1
    = Ret [(lit "9", [PInt 7; PInt 8])] /\
  net_log (load_xgi_data (lit "email-enron") (lit "/tmp") true None None None w_cached).2
    = net_log w_cached /\
  (load_xgi_data (lit "email-enron") (lit "/tmp") true None None None w_cached).2 = w_cached.
Proof.
  apply (@load_cached_no_network py conv w_cached (lit "email-enron") (lit "/tmp") stale
           None None None).
  - vm_compute; reflexivity.
  - vm_compute. intros [=].
Defined.

(** C3: a name with the letter U+00DF is a key of the index and the
    helper returns its dataset; the upper-cased name has SS for that letter
    and with it the helper raises the error of line 104. *)
Lemma request_upper_eszett :
  response_json strasse_index
    = Some (PDict [(strasse, PDict [(lit "url", PStr enron_url)])]) /\
  dict_get (str_lower strasse) [(strasse, PDict [(lit "url", PStr enron_url)])]
    = Some (PDict [(lit "url", PStr enron_url)]) /\
  str_upper strasse = lit "STRASSE" /\
  (_request_from_xgi_data strasse w_strasse).1 = Ret enron_data /\
  (_request_from_xgi_data (str_upper strasse) w_strasse).1 = Raise DatasetNotFound.
Proof. vm_compute. repeat split. Qed.

(** C3, amended, at the name Email-Enron. *)
Lemma request_upper_ascii_witness :
  _request_from_xgi_data (str_upper (lit "Email-Enron")) w0
    = _request_from_xgi_data (lit "Email-Enron") w0 /\
  (_request_from_xgi_data (lit "Email-Enron") w0).1 <> Raise DatasetNotFound.
Proof.
  apply (@request_upper_ascii py w0 (lit "Email-Enron") index_body
           [(lit "email-enron", PDict [(lit "url", PStr enron_url)])]
           (PDict [(lit "url", PStr enron_url)]));
    vm_compute; reflexivity.
Defined.

(** C4: the dataset downloaded under /tmp and loaded back. *)
Lemma download_then_load_witness :
  load_xgi_data (lit "email-enron") (lit "/tmp") true None None None
    (download_xgi_data (lit "email-enron") (lit "/tmp") w0).2
  = (convert_outcome (dict_to_hypergraph enron_data None None None),
     (download_xgi_data (lit "email-enron") (lit "/tmp") w0).2).
Proof.
  apply (@download_then_load py conv w0 (lit "email-enron") (lit "/tmp")
           (jtext "{'edge-dict': {'0': [1, 2, 3], '1': [2, 4]}}")
           enron_data None None None).
  - vm_compute; reflexivity.
  - vm_compute; reflexivity.
  - vm_compute; reflexivity.
  - vm_compute; reflexivity.
  - vm_compute. intros [=].
Defined.


(** C6: nothing is stored locally and the index does not hold the name
    foo; loading it warns once and calls [requests.get] once, for the
    index, and never for a dataset. *)
Lemma load_miss_unknown_one_call :
  fs w0 !! cache_path (lit "") (lit "foo") = None /\
  (load_xgi_data (lit "foo") (lit "") true None None None w0).1 = Raise DatasetNotFound /\
  warnings (load_xgi_data (lit "foo") (lit "") true None None None w0).2
    = [no_local_copy (lit "foo.json")] /\
  net_log (load_xgi_data (lit "foo") (lit "") true None None None w0).2
    = [PStr index_url].
Proof. vm_compute. repeat split. Qed.

(** C6, amended, at the name email-Enron with nothing stored locally. *)
Lemma load_miss_warns_and_fetches_witness :
  warnings (load_xgi_data (lit "email-Enron") (lit "") true None None None w0).2
    = warnings w0 ++ [no_local_copy (cache_path (lit "") (lit "email-Enron"))] /\
  (exists rest,
     net_log (load_xgi_data (lit "email-Enron") (lit "") true None None None w0).2
       = net_log w0 ++ PStr index_url :: rest /\ (length rest <= 1)%nat) /\
  (forall body items entry url,
     remote w0 !! index_url = Some body ->
     response_json body = Some (PDict items) ->
     dict_get (str_lower (lit "email-Enron")) items = Some entry ->
     py_getitem entry (lit "url") = Ret url ->
     net_log (load_xgi_data (lit "email-Enron") (lit "") true None None None w0).2
       = net_log w0 ++ [PStr index_url; url]) /\
  (forall body items,
     remote w0 !! index_url = Some body ->
     response_json body = Some (PDict items) ->
     dict_get (str_lower (lit "email-Enron")) items = None ->
     net_log (load_xgi_data (lit "email-Enron") (lit "") true None None None w0).2
       = net_log w0 ++ [PStr index_url]).
Proof.
  apply (@load_miss_warns_and_fetches py conv w0 (lit "email-Enron") (lit "")
           None None None).
  vm_compute; reflexivity.
Defined.



(** C9: nothing is reachable; the older copy under /tmp stays. *)
Lemma download_failure_keeps_files_witness :
  (_request_from_xgi_data (lit "email-enron") w_offline).1 = Raise RequestException /\
  ((download_xgi_data (lit "email-enron") (lit "/tmp") w_offline).1
     = Raise RequestException /\
   (download_xgi_data (lit "email-enron") (lit "/tmp") w_offline).2
     = (_request_from_xgi_data (lit "email-enron") w_offline).2 /\
   fs (download_xgi_data (lit "email-enron") (lit "/tmp") w_offline).2 = fs w_offline /\
   fs (download_xgi_data (lit "email-enron") (lit "/tmp") w_offline).2
     !! cache_path (lit "/tmp") (lit "email-enron")
   = fs w_offline !! cache_path (lit "/tmp") (lit "email-enron")).
Proof.
  split.
  - vm_compute; reflexivity.
  - apply (@download_failure_keeps_files py w_offline
             (lit "email-enron") (lit "/tmp") RequestException).
    vm_compute; reflexivity.
Defined.


(** The example of the index with the one key email-enron: loading
    email-Enron with nothing stored locally warns once, fetches the index
    and then the dataset, and returns the conversion of the dataset. *)
Example load_email_enron :
  (load_xgi_data (lit "email-Enron") (lit "") true None None None w0).1 = Ret enron_graph /\
  net_log (load_xgi_data (lit "email-Enron") (lit "") true None None None w0).2
    = [PStr index_url; PStr enron_url] /\
  warnings (load_xgi_data (lit "email-Enron") (lit "") true None None None w0).2
    = [no_local_copy (lit "email-Enron.json")] /\
  dict_to_hypergraph enron_data None None None = inl enron_graph.
Proof. vm_compute. repeat split. Qed.

(** The helper in a world with an older local copy and in one without. *)
Lemma request_reads_remote_only_witness :
  (_request_from_xgi_data (lit "email-enron") w_cached).1
  = (_request_from_xgi_data (lit "email-enron") w0).1.
Proof.
  apply (@request_reads_remote_only py (lit "email-enron") w_cached w0).
  reflexivity.
Defined.

Lemma request_index_unreachable_witness :
  _request_from_xgi_data (lit "email-enron") w_offline =
    (Raise RequestException, set_net_log (net_log w_offline ++ [PStr index_url]) w_offline).
Proof.
  apply (@request_index_unreachable py (lit "email-enron") w_offline).
  vm_compute; reflexivity.
Defined.

Lemma request_index_not_json_witness :
  _request_from_xgi_data (lit "email-enron") w_garbled =
    (Raise JSONDecodeError, set_net_log (net_log w_garbled ++ [PStr index_url]) w_garbled).
Proof.
  apply (@request_index_not_json py (lit "email-enron") (lit "<html>not found</html>")
           w_garbled);
    vm_compute; reflexivity.
Defined.

Lemma request_index_not_iterable_witness :
  _request_from_xgi_data (lit "email-enron") w_scalar =
    (Raise TypeError, set_net_log (net_log w_scalar ++ [PStr index_url]) w_scalar).
Proof.
  apply (@request_index_not_iterable py (lit "email-enron") (lit "42") (PInt 42) w_scalar);
    vm_compute; reflexivity.
Defined.

Lemma request_entry_without_url_witness :
  _request_from_xgi_data (lit "Email-Enron") w_nourl =
    (Raise (KeyError (lit "url")), set_net_log (net_log w_nourl ++ [PStr index_url]) w_nourl).
Proof.
  apply (@request_entry_without_url py (lit "Email-Enron")
           (jtext "{'email-enron': {'href': 'elsewhere'}}")
           [(lit "email-enron", PDict [(lit "href", PStr (lit "elsewhere"))])]
           [(lit "href", PStr (lit "elsewhere"))] w_nourl);
    vm_compute; reflexivity.
Defined.




Lemma download_unwritable_witness :
  (download_xgi_data (lit "email-enron") (lit "/tmp") w_locked).1 = Raise OSError /\
  (download_xgi_data (lit "email-enron") (lit "/tmp") w_locked).2
    = (_request_from_xgi_data (lit "email-enron") w_locked).2 /\
  fs (download_xgi_data (lit "email-enron") (lit "/tmp") w_locked).2 = fs w_locked.
Proof.
  apply (@download_unwritable py w_locked (lit "email-enron") (lit "/tmp") enron_data).
  - vm_compute; reflexivity.
  - right. vm_compute; reflexivity.
Defined.

Lemma download_twice_witness :
  (download_xgi_data (lit "email-enron") (lit "/tmp")
     (download_xgi_data (lit "email-enron") (lit "/tmp") w0).2).1 = Ret tt /\
  fs (download_xgi_data (lit "email-enron") (lit "/tmp")
        (download_xgi_data (lit "email-enron") (lit "/tmp") w0).2).2
  = fs (download_xgi_data (lit "email-enron") (lit "/tmp") w0).2.
Proof.
  apply (@download_twice py w0 (lit "email-enron") (lit "/tmp")).
  vm_compute; reflexivity.
Defined.

End Instances.
